(** * Xiaomi 1C vacuum entity (custom_components/xiaomi_vacuum/vacuum.py)

    A shallow embedding of the [Xiaomi1CVacuum] entity: its two lookup
    tables, its state properties, the periodic [update] poll and the
    command methods that delegate to the bundled device client.

    The device client ([DreameVacuum]) is an external collaborator.  It is
    modelled as an oracle that answers each call from the history of the
    calls made so far; every call the entity makes is recorded in a trace,
    so that "which device method was called, with what, how many times"
    are statements about that trace. *)

From stdpp Require Import base option list gmap strings fin_maps.
From Stdlib Require Import ZArith Lia.

Local Open Scope Z_scope.
Local Open Scope string_scope.
Local Open Scope list_scope.

(** ** Platform enum and module-level tables *)

(** [homeassistant.components.vacuum.VacuumActivity]. *)
Inductive VacuumActivity : Type :=
  | CLEANING
  | DOCKED
  | IDLE
  | PAUSED
  | RETURNING
  | ERROR.

#[global] Instance VacuumActivity_eq_dec : EqDecision VacuumActivity.
Proof. solve_decision. Defined.

(** [FAN_SPEEDS = {"Silent": 0, "Standard": 1, "Medium": 2, "Turbo": 3}].
    A Python dict keeps insertion order: [FAN_SPEEDS_items] is
    [FAN_SPEEDS.items()] in that order, [FAN_SPEEDS] the lookup. *)
Definition FAN_SPEEDS_items : list (string * Z) :=
  [("Silent", 0); ("Standard", 1); ("Medium", 2); ("Turbo", 3)].

Definition FAN_SPEEDS : gmap string Z :=
  foldl (fun d kv => <[kv.1 := kv.2]> d) ∅ FAN_SPEEDS_items.

(** [STATUS_TO_ACTIVITY], keyed by the device status enum. *)
Definition STATUS_TO_ACTIVITY : gmap Z VacuumActivity :=
  <[6 := DOCKED]> (<[5 := RETURNING]> (<[4 := ERROR]> (<[3 := PAUSED]>
    (<[2 := IDLE]> (<[1 := CLEANING]> ∅))))).

(** [dict.get(key, default)]. *)
Definition dict_get `{Countable K} {V} (d : gmap K V) (key : K) (dflt : V) : V :=
  match d !! key with
  | Some v => v
  | None => dflt
  end.

(** The comprehension [{v: k for k, v in d.items()}]: items are visited
    in order and a later item overwrites an earlier one with the same
    value. *)
Definition invert_items (items : list (string * Z)) : gmap Z string :=
  foldl (fun rev kv => <[kv.2 := kv.1]> rev) ∅ items.

(** ** The status object and the entity *)

(** What [device.status()] returns: only the attributes [update] reads.
    Each is an int or [None]. *)
Record DreameStatus : Type := mkStatus {
  battery : option Z;
  st_fan_speed : option Z;
  status : option Z;
  error : option Z;
  last_clean : option Z;
  area : option Z
}.

(** The instance attributes set by [__init__] (the device reference
    [_device] lives in the world, below). *)
Record Xiaomi1CVacuum : Type := mkVacuum {
  _name : string;
  _available : bool;
  _battery : option Z;
  _fan_speed : option Z;
  _status : option Z;
  _error : option Z;
  _clean_time : option Z;
  _clean_area : option Z
}.

Definition init (name : string) : Xiaomi1CVacuum :=
  {| _name := name; _available := false; _battery := None;
     _fan_speed := None; _status := None; _error := None;
     _clean_time := None; _clean_area := None |}.

(** ** State properties *)

Definition name (self : Xiaomi1CVacuum) : string := _name self.

Definition available (self : Xiaomi1CVacuum) : bool := _available self.

Definition activity (self : Xiaomi1CVacuum) : option VacuumActivity :=
  match _status self with
  | None => None
  | Some c => Some (dict_get STATUS_TO_ACTIVITY c IDLE)
  end.

Definition battery_level (self : Xiaomi1CVacuum) : option Z := _battery self.

Definition fan_speed (self : Xiaomi1CVacuum) : option string :=
  match _fan_speed self with
  | None => None
  | Some n =>
      let rev := invert_items FAN_SPEEDS_items in
      Some (dict_get rev n "Standard")
  end.

Definition fan_speed_list (self : Xiaomi1CVacuum) : list string :=
  FAN_SPEEDS_items.*1.

Definition extra_state_attributes (self : Xiaomi1CVacuum) : gmap string Z :=
  let attrs : gmap string Z := ∅ in
  let attrs :=
    match _clean_time self with
    | Some t => <["cleaning_time" := t]> attrs
    | None => attrs
    end in
  let attrs :=
    match _clean_area self with
    | Some a => <["cleaning_area" := a]> attrs
    | None => attrs
    end in
  let attrs :=
    match _error self with
    | Some e => if bool_decide (e ≠ 0) then <["error_code" := e]> attrs else attrs
    | None => attrs
    end in
  attrs.

(** ** The device client, exceptions and the world *)

(** The two kinds of exception the entity distinguishes: the bundled
    client's [DeviceException], which [update] catches, and everything
    else, which it lets through. *)
Inductive PyExc : Type :=
  | DeviceException (msg : string)
  | OtherException (msg : string).

Inductive Outcome (A : Type) : Type :=
  | Returns (a : A)
  | Raises (exc : PyExc).
Arguments Returns {A} a.
Arguments Raises {A} exc.

(** The [params] argument of [send_command]: [None], a list or a dict. *)
Inductive Params : Type :=
  | PNone
  | PList (items : list Z)
  | PDict (items : list (string * Z)).

(** Python truthiness of such a value. *)
Definition truthy (p : Params) : bool :=
  match p with
  | PNone => false
  | PList items => negb (bool_decide (items = []))
  | PDict items => negb (bool_decide (items = []))
  end.

(** [params or []]. *)
Definition params_or_empty (p : Params) : Params :=
  if truthy p then p else PList [].

(** One call on the device client, with its arguments. *)
Inductive DeviceCall : Type :=
  | CallStatus
  | CallStart
  | CallStop
  | CallStopSweeping
  | CallReturnHome
  | CallFind
  | CallSetFanSpeed (speed : Z)
  | CallRawCommand (command : string) (params : Params).

(** The device client as an oracle: the answer to a call may depend on
    every call made before it (oldest first). *)
Record Device : Type := mkDevice {
  ip : string;
  status_reply : list DeviceCall -> Outcome DreameStatus;
  command_reply : list DeviceCall -> DeviceCall -> Outcome unit
}.

(** The entity, the trace of device calls made so far (oldest first) and
    the records written to [_LOGGER]. *)
Record World : Type := mkWorld {
  entity : Xiaomi1CVacuum;
  device_calls : list DeviceCall;
  logged : list string
}.

(** ** A state-and-exception monad for the methods *)

Definition Py (A : Type) : Type := World -> Outcome A * World.

#[global] Instance Py_ret : MRet Py := fun A a w => (Returns a, w).

#[global] Instance Py_bind : MBind Py := fun A B f m w =>
  match m w with
  | (Returns a, w') => f a w'
  | (Raises exc, w') => (Raises exc, w')
  end.

(** [try: body except DeviceException as exc: handler]. *)
Definition try_except_DeviceException {A} (body : Py A)
    (handler : string -> Py A) : Py A := fun w =>
  match body w with
  | (Raises (DeviceException msg), w') => handler msg w'
  | r => r
  end.

Definition py_raise {A} (exc : PyExc) : Py A := fun w => (Raises exc, w).

(** [key in d] and [d[key]] (a missing key raises [KeyError]). *)
Definition dict_contains `{Countable K} {V} (d : gmap K V) (key : K) : bool :=
  bool_decide (key ∈ dom d).

Definition dict_getitem `{Countable K} {V} (d : gmap K V) (key : K) : Py V :=
  match d !! key with
  | Some v => mret v
  | None => py_raise (OtherException "KeyError")
  end.

Definition modify_entity (f : Xiaomi1CVacuum -> Xiaomi1CVacuum) : Py unit :=
  fun w => (Returns tt,
            {| entity := f (entity w); device_calls := device_calls w;
               logged := logged w |}).

Definition logger_error (record : string) : Py unit :=
  fun w => (Returns tt,
            {| entity := entity w; device_calls := device_calls w;
               logged := logged w ++ [record] |}).

(** Attribute assignments [self._x = v]. *)
Definition set_available (v : bool) (e : Xiaomi1CVacuum) : Xiaomi1CVacuum :=
  {| _name := _name e; _available := v; _battery := _battery e;
     _fan_speed := _fan_speed e; _status := _status e; _error := _error e;
     _clean_time := _clean_time e; _clean_area := _clean_area e |}.

Definition set_battery (v : option Z) (e : Xiaomi1CVacuum) : Xiaomi1CVacuum :=
  {| _name := _name e; _available := _available e; _battery := v;
     _fan_speed := _fan_speed e; _status := _status e; _error := _error e;
     _clean_time := _clean_time e; _clean_area := _clean_area e |}.

Definition set_fan_speed_attr (v : option Z) (e : Xiaomi1CVacuum) : Xiaomi1CVacuum :=
  {| _name := _name e; _available := _available e; _battery := _battery e;
     _fan_speed := v; _status := _status e; _error := _error e;
     _clean_time := _clean_time e; _clean_area := _clean_area e |}.

Definition set_status (v : option Z) (e : Xiaomi1CVacuum) : Xiaomi1CVacuum :=
  {| _name := _name e; _available := _available e; _battery := _battery e;
     _fan_speed := _fan_speed e; _status := v; _error := _error e;
     _clean_time := _clean_time e; _clean_area := _clean_area e |}.

Definition set_error (v : option Z) (e : Xiaomi1CVacuum) : Xiaomi1CVacuum :=
  {| _name := _name e; _available := _available e; _battery := _battery e;
     _fan_speed := _fan_speed e; _status := _status e; _error := v;
     _clean_time := _clean_time e; _clean_area := _clean_area e |}.

Definition set_clean_time (v : option Z) (e : Xiaomi1CVacuum) : Xiaomi1CVacuum :=
  {| _name := _name e; _available := _available e; _battery := _battery e;
     _fan_speed := _fan_speed e; _status := _status e; _error := _error e;
     _clean_time := v; _clean_area := _clean_area e |}.

Definition set_clean_area (v : option Z) (e : Xiaomi1CVacuum) : Xiaomi1CVacuum :=
  {| _name := _name e; _available := _available e; _battery := _battery e;
     _fan_speed := _fan_speed e; _status := _status e; _error := _error e;
     _clean_time := _clean_time e; _clean_area := v |}.

(** ** Methods that talk to the device *)

Section Methods.

(** [self._device]. *)
Variable device : Device.

(** [self._device.status()]: the call is recorded, then answered. *)
Definition device_status : Py DreameStatus := fun w =>
  (status_reply device (device_calls w),
   {| entity := entity w; device_calls := device_calls w ++ [CallStatus];
      logged := logged w |}).

(** Any other device method: recorded, then answered; the value it
    returns is dropped by every caller. *)
Definition device_command (call : DeviceCall) : Py unit := fun w =>
  (command_reply device (device_calls w) call,
   {| entity := entity w; device_calls := device_calls w ++ [call];
      logged := logged w |}).


Definition update : Py unit :=
  try_except_DeviceException
    (st ← device_status;
     modify_entity (set_available true);;
     modify_entity (set_battery (battery st));;
     modify_entity (set_fan_speed_attr (st_fan_speed st));;
     modify_entity (set_status (status st));;
     modify_entity (set_error (error st));;
     modify_entity (set_clean_time (last_clean st));;
     modify_entity (set_clean_area (area st)))
    (fun exc =>
       logger_error ("Update failed: " +:+ exc);;
       modify_entity (set_available false)).

Definition start : Py unit := device_command CallStart.

Definition stop : Py unit := device_command CallStop.

Definition pause : Py unit := device_command CallStopSweeping.

Definition return_to_base : Py unit := device_command CallReturnHome.

Definition locate : Py unit := device_command CallFind.

Definition set_fan_speed (fan_speed : string) : Py unit :=
  if negb (dict_contains FAN_SPEEDS fan_speed)
  then logger_error ("Invalid fan speed " +:+ fan_speed)
  else
    speed ← dict_getitem FAN_SPEEDS fan_speed;
    device_command (CallSetFanSpeed speed).

Definition send_command (command : string) (params : Params) : Py unit :=
  device_command (CallRawCommand command (params_or_empty params)).

End Methods.

(** ** Commands as the platform issues them *)

(** The services the platform forwards to the entity, with their
    arguments ([**kwargs] are ignored by every method). *)
Inductive Command : Type :=
  | CmdStart
  | CmdStop
  | CmdPause
  | CmdReturnToBase
  | CmdLocate
  | CmdSetFanSpeed (fan_speed : string)
  | CmdSendCommand (command : string) (params : Params).

Definition run_command (device : Device) (c : Command) : Py unit :=
  match c with
  | CmdStart => start device
  | CmdStop => stop device
  | CmdPause => pause device
  | CmdReturnToBase => return_to_base device
  | CmdLocate => locate device
  | CmdSetFanSpeed fan_speed => set_fan_speed device fan_speed
  | CmdSendCommand command params => send_command device command params
  end.

(** ** Sample devices and worlds *)

Definition docked_status : DreameStatus :=
  {| battery := Some 87; st_fan_speed := Some 2; status := Some 6;
     error := Some 0; last_clean := Some 15; area := Some 12 |}.

(** A device that answers every call. *)
Definition healthy_device : Device :=
  {| ip := "192.168.1.20";
     status_reply := fun _ => Returns docked_status;
     command_reply := fun _ _ => Returns tt |}.

(** A device that cannot be reached. *)
Definition offline_device : Device :=
  {| ip := "192.168.1.20";
     status_reply := fun _ => Raises (DeviceException "timeout");
     command_reply := fun _ _ => Raises (DeviceException "timeout") |}.

(** A device that is cleaning at fan speed 3. *)
Definition turbo_status : DreameStatus :=
  {| battery := Some 50; st_fan_speed := Some 3; status := Some 1;
     error := None; last_clean := None; area := None |}.

Definition turbo_device : Device :=
  {| ip := "192.168.1.20";
     status_reply := fun _ => Returns turbo_status;
     command_reply := fun _ _ => Returns tt |}.

(** The world right after [setup_platform] built the entity. *)
Definition fresh_world : World :=
  {| entity := init "Xiaomi 1C"; device_calls := []; logged := [] |}.

(** The entity after one successful poll of [healthy_device]. *)
Definition polled_world : World := (update healthy_device fresh_world).2.

(** ** Tables as the specification words them *)

(** 1 -> CLEANING, 2 -> IDLE, 3 -> PAUSED, 4 -> ERROR, 5 -> RETURNING,
    6 -> DOCKED. *)
Definition activity_table : list (Z * VacuumActivity) :=
  [(1, CLEANING); (2, IDLE); (3, PAUSED); (4, ERROR); (5, RETURNING);
   (6, DOCKED)].

(** Silent, Standard, Medium, Turbo to 0, 1, 2, 3 respectively. *)
Definition fan_speed_table : list (string * Z) :=
  [("Silent", 0); ("Standard", 1); ("Medium", 2); ("Turbo", 3)].

(** The device method each command is delegated to: start to [start],
    stop to [stop], pause to [stop_sweeping], return_to_base to
    [return_home], locate to [find], set_fan_speed to [set_fan_speed] and
    send_command to [raw_command]. *)
Definition delegate_of (c : Command) (call : DeviceCall) : Prop :=
  match c, call with
  | CmdStart, CallStart => True
  | CmdStop, CallStop => True
  | CmdPause, CallStopSweeping => True
  | CmdReturnToBase, CallReturnHome => True
  | CmdLocate, CallFind => True
  | CmdSetFanSpeed _, CallSetFanSpeed _ => True
  | CmdSendCommand _ _, CallRawCommand _ _ => True
  | _, _ => False
  end.

(** Running the command makes exactly one device call, on the method the
    command is delegated to, and leaves the entity as it was. *)
Definition delegates_once (device : Device) (c : Command) (w : World) : Prop :=
  ∃ call : DeviceCall,
    delegate_of c call
    ∧ device_calls (run_command device c w).2 = device_calls w ++ [call]
    ∧ entity (run_command device c w).2 = entity w.

(** Every command but a [set_fan_speed] whose name is not one of the
    table's. *)
Definition names_known_speed (c : Command) : Prop :=
  match c with
  | CmdSetFanSpeed fan_speed => fan_speed ∈ fan_speed_table.*1
  | _ => True
  end.

(** ** Icon and feature flags *)

Section BatteryIcon.

(** [homeassistant.helpers.icon.icon_for_battery_level], the platform's
    helper: from the battery level and the charging flag to an icon
    name. *)
Variable icon_for_battery_level : option Z -> bool -> string.

Definition battery_icon (self : Xiaomi1CVacuum) : string :=
  let charging := bool_decide (_status self = Some 6) in
  icon_for_battery_level (_battery self) charging.

End BatteryIcon.

(** The members of the platform's [VacuumEntityFeature] flag enum that
    the module names; their integer values are the platform's. *)
Record VacuumEntityFeature : Type := mkFeatures {
  START : Z;
  STOP : Z;
  PAUSE : Z;
  RETURN_HOME : Z;
  FAN_SPEED : Z;
  SEND_COMMAND : Z;
  LOCATE : Z;
  STATE : Z
}.

(** [SUPPORT_XIAOMI_1C]: the flags joined with [|], left to right. *)
Definition SUPPORT_XIAOMI_1C (F : VacuumEntityFeature) : Z :=
  Z.lor (Z.lor (Z.lor (Z.lor (Z.lor (Z.lor (Z.lor
    (START F) (STOP F)) (PAUSE F)) (RETURN_HOME F)) (FAN_SPEED F))
    (SEND_COMMAND F)) (LOCATE F)) (STATE F).

Definition supported_features (F : VacuumEntityFeature)
    (self : Xiaomi1CVacuum) : Z :=
  SUPPORT_XIAOMI_1C F.

(** The flag values of Home Assistant's [VacuumEntityFeature]. *)
Definition ha_features : VacuumEntityFeature :=
  {| START := 8192; STOP := 8; PAUSE := 4; RETURN_HOME := 16;
     FAN_SPEED := 32; SEND_COMMAND := 256; LOCATE := 512; STATE := 4096 |}.

(** ** Setting the platform up *)

(** What [setup_platform] hands back: it falls off its end ([None]) or
    returns [False]. *)
Inductive SetupResult : Type :=
  | SetupNone
  | SetupFalse.

(** What [setup_platform] is given besides [config]: the key names
    [CONF_HOST], [CONF_TOKEN] and [CONF_NAME] of [homeassistant.const],
    the constructor of the bundled client and the platform's
    [add_entities] callback.  The last two are oracles; each may raise. *)
Record Platform : Type := mkPlatform {
  CONF_HOST : string;
  CONF_TOKEN : string;
  CONF_NAME : string;
  DreameDevice : string -> string -> Outcome Device;
  add_entities_reply : list (Xiaomi1CVacuum * Device) -> bool -> Outcome unit
}.

(** What [setup_platform] leaves behind: the calls of the client
    constructor (each with its host and token), the calls of
    [add_entities] (each with its entities, every entity beside the device
    it holds, and the [update_before_add] flag) and the records written to
    [_LOGGER]. *)
Record Hass : Type := mkHass {
  constructed : list (string * string);
  added : list (list (Xiaomi1CVacuum * Device) * bool);
  hass_logged : list string
}.

Definition hass_construct (host token : string) (h : Hass) : Hass :=
  {| constructed := constructed h ++ [(host, token)];
     added := added h; hass_logged := hass_logged h |}.

Definition hass_log (record : string) (h : Hass) : Hass :=
  {| constructed := constructed h; added := added h;
     hass_logged := hass_logged h ++ [record] |}.

Definition hass_add (entities : list (Xiaomi1CVacuum * Device))
    (update_before_add : bool) (h : Hass) : Hass :=
  {| constructed := constructed h;
     added := added h ++ [(entities, update_before_add)];
     hass_logged := hass_logged h |}.

Definition setup_platform (P : Platform) (config : gmap string string)
    (h : Hass) : Outcome SetupResult * Hass :=
  match config !! CONF_HOST P with
  | None => (Raises (OtherException "KeyError"), h)
  | Some host =>
  match config !! CONF_TOKEN P with
  | None => (Raises (OtherException "KeyError"), h)
  | Some token =>
  match config !! CONF_NAME P with
  | None => (Raises (OtherException "KeyError"), h)
  | Some name =>
      let h := hass_construct host token h in
      match DreameDevice P host token with
      | Raises (DeviceException exc) =>
          (Returns SetupFalse,
           hass_log ("Failed to connect to Xiaomi 1C vacuum: " +:+ exc) h)
      | Raises exc => (Raises exc, h)
      | Returns device =>
          let vacuum := init name in
          let h := hass_add [(vacuum, device)] true h in
          match add_entities_reply P [(vacuum, device)] true with
          | Raises (DeviceException exc) =>
              (Returns SetupFalse,
               hass_log ("Failed to connect to Xiaomi 1C vacuum: " +:+ exc) h)
          | Raises exc => (Raises exc, h)
          | Returns _ => (Returns SetupNone, h)
          end
      end
  end end end.

(** A platform whose client constructor and callback succeed. *)
Definition ha_platform : Platform :=
  {| CONF_HOST := "host"; CONF_TOKEN := "token"; CONF_NAME := "name";
     DreameDevice := fun host token =>
       Returns {| ip := host;
                  status_reply := fun _ => Returns docked_status;
                  command_reply := fun _ _ => Returns tt |};
     add_entities_reply := fun _ _ => Returns tt |}.

(** A platform whose client constructor fails. *)
Definition failing_platform : Platform :=
  {| CONF_HOST := "host"; CONF_TOKEN := "token"; CONF_NAME := "name";
     DreameDevice := fun _ _ => Raises (DeviceException "bad token");
     add_entities_reply := fun _ _ => Returns tt |}.

Definition sample_config : gmap string string :=
  <["name" := "Xiaomi 1C"]> (<["token" := "00ff"]>
    (<["host" := "192.168.1.20"]> ∅)).

Definition empty_hass : Hass :=
  {| constructed := []; added := []; hass_logged := [] |}.

(** ** Sequences of platform calls *)

(** One call of the platform on the entity: a poll or a command. *)
Inductive Op : Type :=
  | OpUpdate
  | OpCommand (c : Command).

Definition run_op (device : Device) (op : Op) : Py unit :=
  match op with
  | OpUpdate => update device
  | OpCommand c => run_command device c
  end.

(** The platform makes its calls one after another on the same entity;
    what a call returns or raises is the platform's to handle and does not
    stop the calls that follow. *)
Definition run_ops (device : Device) (ops : list Op) (w : World) : World :=
  foldl (fun w op => (run_op device op w).2) w ops.

(** The device call a command amounts to, if any. *)
Definition call_of_command (c : Command) : option DeviceCall :=
  match c with
  | CmdStart => Some CallStart
  | CmdStop => Some CallStop
  | CmdPause => Some CallStopSweeping
  | CmdReturnToBase => Some CallReturnHome
  | CmdLocate => Some CallFind
  | CmdSetFanSpeed fan_speed => CallSetFanSpeed <$> FAN_SPEEDS !! fan_speed
  | CmdSendCommand command params =>
      Some (CallRawCommand command (params_or_empty params))
  end.

Definition call_of (op : Op) : option DeviceCall :=
  match op with
  | OpUpdate => Some CallStatus
  | OpCommand c => call_of_command c
  end.

(** An entity whose six state fields are those of one status object. *)
Definition snapshot (name : string) (avail : bool) (st : DreameStatus)
    : Xiaomi1CVacuum :=
  {| _name := name; _available := avail; _battery := battery st;
     _fan_speed := st_fan_speed st; _status := status st;
     _error := error st; _clean_time := last_clean st;
     _clean_area := area st |}.

(** A device whose first status call fails and whose later ones answer,
    and that refuses every command. *)
Definition flaky_device : Device :=
  {| ip := "192.168.1.21";
     status_reply := fun calls =>
       match calls with
       | [] => Raises (DeviceException "timeout")
       | _ => Returns turbo_status
       end;
     command_reply := fun _ _ => Raises (DeviceException "busy") |}.

(** A device whose client fails with something other than
    [DeviceException]. *)
Definition broken_device : Device :=
  {| ip := "192.168.1.22";
     status_reply := fun _ => Raises (OtherException "OSError");
     command_reply := fun _ _ => Raises (OtherException "OSError") |}.

(** * Properties *)

Example activity_returning :
  activity {| _name := "v"; _available := true; _battery := None;
              _fan_speed := Some 2; _status := Some 5; _error := None;
              _clean_time := None; _clean_area := None |} = Some RETURNING.
Proof. vm_compute. reflexivity. Qed.

Example fan_speed_medium : fan_speed (entity polled_world) = Some "Medium".
Proof. vm_compute. reflexivity. Qed.

Example polled_world_calls : device_calls polled_world = [CallStatus].
Proof. vm_compute. reflexivity. Qed.

Example set_fan_speed_turbo :
  device_calls (set_fan_speed healthy_device "Turbo" fresh_world).2
  = [CallSetFanSpeed 3].
Proof. vm_compute. reflexivity. Qed.

Example set_fan_speed_max :
  set_fan_speed healthy_device "Max" fresh_world
  = (Returns tt,
     {| entity := init "Xiaomi 1C"; device_calls := [];
        logged := ["Invalid fan speed Max"] |}).
Proof. vm_compute. reflexivity. Qed.

Example update_offline :
  update offline_device polled_world
  = (Returns tt,
     {| entity := set_available false (entity polled_world);
        device_calls := [CallStatus; CallStatus];
        logged := ["Update failed: timeout"] |}).
Proof. vm_compute. reflexivity. Qed.

Example available_after_poll :
  available (entity fresh_world) = false
  ∧ available (entity polled_world) = true.
Proof. by vm_compute. Qed.

Example activity_unknown_code :
  activity (set_status (Some 9) (init "v")) = Some IDLE
  ∧ activity (set_status (Some 0) (init "v")) = Some IDLE
  ∧ activity (init "v") = None.
Proof. by vm_compute. Qed.

Example attributes_after_poll :
  extra_state_attributes (entity polled_world)
  = <["cleaning_area" := 12]> (<["cleaning_time" := 15]> ∅).
Proof. by vm_compute. Qed.

Example attributes_with_error :
  extra_state_attributes (set_error (Some 3) (init "v"))
  = <["error_code" := 3]> ∅.
Proof. by vm_compute. Qed.

(** ** The lookup tables *)

(** Splits a hypothesis [x ∈ [x1; ...; xn]] into its [n] cases. *)
Ltac table_cases H :=
  repeat (apply elem_of_cons in H as [H | H];
          [ simplify_eq | ]);
  [ .. | by apply elem_of_nil in H ].

Lemma STATUS_TO_ACTIVITY_outside (c : Z) :
  ¬ (1 ≤ c ≤ 6)%Z → STATUS_TO_ACTIVITY !! c = None.
Proof.
  intros Hc. unfold STATUS_TO_ACTIVITY.
  rewrite !lookup_insert_ne by lia. apply lookup_empty.
Qed.

(** C1: for every status code [c] from 1 to 6, an entity whose stored
    status is [c] reports the activity the fixed table gives for [c]
    (1 -> CLEANING, 2 -> IDLE, 3 -> PAUSED, 4 -> ERROR, 5 -> RETURNING,
    6 -> DOCKED), and that is the value the [STATUS_TO_ACTIVITY]
    dictionary holds at [c]. *)
Theorem activity_fixed_table (self : Xiaomi1CVacuum) (c : Z) :
  _status self = Some c →
  (1 ≤ c ≤ 6)%Z →
  ∃ a : VacuumActivity,
    (c, a) ∈ activity_table
    ∧ STATUS_TO_ACTIVITY !! c = Some a
    ∧ activity self = Some a.
Proof.
  intros Hs Hc. unfold activity, dict_get. rewrite Hs.
  assert (c = 1 ∨ c = 2 ∨ c = 3 ∨ c = 4 ∨ c = 5 ∨ c = 6)%Z as Hcases by lia.
  destruct_or! Hcases; subst c; eexists;
    (split; [| split; [by vm_compute | by vm_compute]]);
    unfold activity_table;
    eauto 8 using list_elem_of_here, list_elem_of_further.
Qed.

Lemma activity_fixed_table_docked :
  ∃ a : VacuumActivity,
    (6, a) ∈ activity_table
    ∧ STATUS_TO_ACTIVITY !! 6 = Some a
    ∧ activity (entity polled_world) = Some a.
Proof.
  apply (activity_fixed_table (entity polled_world) 6).
  - reflexivity.
  - lia.
Defined.

(** Each entry of the table, read through [activity]. *)
Lemma activity_table_entry (self : Xiaomi1CVacuum) (c : Z) (a : VacuumActivity) :
  _status self = Some c → (c, a) ∈ activity_table → activity self = Some a.
Proof.
  intros Hs Hin. unfold activity, dict_get. rewrite Hs.
  table_cases Hin; by vm_compute.
Qed.

(** C7: [activity] is a total function of the stored status; it is [None]
    exactly when the status is [None], and every status code outside 1..6
    falls back to [IDLE]. *)
Theorem activity_total (self : Xiaomi1CVacuum) :
  (activity self = None ↔ _status self = None)
  ∧ (∀ c : Z, _status self = Some c → ¬ (1 ≤ c ≤ 6)%Z →
       activity self = Some IDLE).
Proof.
  unfold activity. split.
  - destruct (_status self); split; intros; by simplify_eq.
  - intros c -> Hc. unfold dict_get.
    by rewrite STATUS_TO_ACTIVITY_outside.
Qed.

Lemma activity_total_code_9 :
  activity (set_status (Some 9) (init "Xiaomi 1C")) = Some IDLE.
Proof.
  apply (proj2 (activity_total (set_status (Some 9) (init "Xiaomi 1C"))) 9).
  - reflexivity.
  - lia.
Defined.

(** ** Attributes *)

(** What each of the three keys holds, and that no other key is set. *)
Lemma attrs_cleaning_time (self : Xiaomi1CVacuum) :
  extra_state_attributes self !! "cleaning_time" = _clean_time self.
Proof.
  unfold extra_state_attributes.
  destruct (_clean_time self), (_clean_area self), (_error self);
    try case_bool_decide; by simplify_map_eq.
Qed.

Lemma attrs_cleaning_area (self : Xiaomi1CVacuum) :
  extra_state_attributes self !! "cleaning_area" = _clean_area self.
Proof.
  unfold extra_state_attributes.
  destruct (_clean_time self), (_clean_area self), (_error self);
    try case_bool_decide; by simplify_map_eq.
Qed.

Lemma attrs_error_code (self : Xiaomi1CVacuum) :
  extra_state_attributes self !! "error_code"
  = e ← _error self; if bool_decide (e ≠ 0) then Some e else None.
Proof.
  unfold extra_state_attributes.
  destruct (_clean_time self), (_clean_area self), (_error self); simpl;
    try case_bool_decide; by simplify_map_eq.
Qed.

Lemma attrs_no_other_key (self : Xiaomi1CVacuum) (key : string) :
  key ≠ "cleaning_time" → key ≠ "cleaning_area" → key ≠ "error_code" →
  extra_state_attributes self !! key = None.
Proof.
  intros Ht Ha He. unfold extra_state_attributes.
  destruct (_clean_time self), (_clean_area self), (_error self);
    try case_bool_decide; by simplify_map_eq.
Qed.

(** C9: the attribute dictionary has the key "cleaning_time" exactly when
    the stored clean time is not [None], "cleaning_area" exactly when the
    stored clean area is not [None], "error_code" exactly when the stored
    error is neither [None] nor 0, and no key besides these three. *)
Theorem extra_state_attributes_keys (self : Xiaomi1CVacuum) :
  ("cleaning_time" ∈ dom (extra_state_attributes self)
     ↔ _clean_time self ≠ None)
  ∧ ("cleaning_area" ∈ dom (extra_state_attributes self)
     ↔ _clean_area self ≠ None)
  ∧ ("error_code" ∈ dom (extra_state_attributes self)
     ↔ _error self ≠ None ∧ _error self ≠ Some 0)
  ∧ (∀ key : string, key ∈ dom (extra_state_attributes self) →
       key ∈ ["cleaning_time"; "cleaning_area"; "error_code"]).
Proof.
  split; [| split; [| split ]].
  - rewrite elem_of_dom, attrs_cleaning_time. split.
    + by intros [? ->].
    + intros Hn. by destruct (_clean_time self); [eexists |].
  - rewrite elem_of_dom, attrs_cleaning_area. split.
    + by intros [? ->].
    + intros Hn. by destruct (_clean_area self); [eexists |].
  - rewrite elem_of_dom, attrs_error_code.
    destruct (_error self) as [e|]; simpl.
    + case_bool_decide as He; split.
      * intros _. split; congruence.
      * intros _. by eexists.
      * by intros [? ?].
      * intros [_ Hz]. destruct He. congruence.
    + split; [by intros [? ?] | by intros [? _]].
  - intros key Hk.
    destruct (decide (key = "cleaning_time")) as [-> | Ht];
      [ apply list_elem_of_here |].
    destruct (decide (key = "cleaning_area")) as [-> | Ha];
      [ apply list_elem_of_further, list_elem_of_here |].
    destruct (decide (key = "error_code")) as [-> | He];
      [ do 2 apply list_elem_of_further; apply list_elem_of_here |].
    apply elem_of_dom in Hk as [v Hv].
    by rewrite attrs_no_other_key in Hv.
Qed.

Lemma extra_state_attributes_keys_polled :
  "cleaning_time" ∈ dom (extra_state_attributes (entity polled_world))
  ∧ "error_code" ∉ dom (extra_state_attributes (entity polled_world)).
Proof.
  split.
  - apply (proj1 (extra_state_attributes_keys (entity polled_world))).
    vm_compute. discriminate.
  - intros Hin.
    apply (proj1 (proj2 (proj2
             (extra_state_attributes_keys (entity polled_world))))) in Hin.
    destruct Hin as [_ Hz]. apply Hz. reflexivity.
Defined.

(** ** The fan-speed dictionary and its inverse *)

Lemma FAN_SPEEDS_lookup (name : string) (n : Z) :
  (name, n) ∈ fan_speed_table → FAN_SPEEDS !! name = Some n.
Proof. intros Hin. table_cases Hin; by vm_compute. Qed.

Lemma FAN_SPEEDS_lookup_inv (name : string) (n : Z) :
  FAN_SPEEDS !! name = Some n → (name, n) ∈ fan_speed_table.
Proof.
  unfold FAN_SPEEDS, FAN_SPEEDS_items, fan_speed_table. simpl.
  rewrite !lookup_insert, lookup_empty.
  repeat case_decide; intros; simplify_eq;
    eauto 6 using list_elem_of_here, list_elem_of_further.
Qed.

Lemma FAN_SPEEDS_unknown (name : string) :
  name ∉ fan_speed_table.*1 → FAN_SPEEDS !! name = None.
Proof.
  intros Hn. destruct (FAN_SPEEDS !! name) as [n|] eqn:Hl; [| done].
  destruct Hn. apply FAN_SPEEDS_lookup_inv in Hl.
  by apply (list_elem_of_fmap_2 fst) in Hl.
Qed.

Lemma inverse_lookup (name : string) (n : Z) :
  (name, n) ∈ fan_speed_table →
  invert_items FAN_SPEEDS_items !! n = Some name.
Proof. intros Hin. table_cases Hin; by vm_compute. Qed.

Lemma inverse_outside (n : Z) :
  ¬ (0 ≤ n ≤ 3)%Z → invert_items FAN_SPEEDS_items !! n = None.
Proof.
  intros Hn. unfold invert_items, FAN_SPEEDS_items. simpl.
  rewrite !lookup_insert_ne by lia. apply lookup_empty.
Qed.

Lemma dict_contains_lookup `{Countable K} {V} (d : gmap K V) (key : K) :
  dict_contains d key = match d !! key with Some _ => true | None => false end.
Proof.
  unfold dict_contains. destruct (d !! key) as [v|] eqn:Hl.
  - apply bool_decide_eq_true, elem_of_dom. by exists v.
  - apply bool_decide_eq_false. by rewrite not_elem_of_dom.
Qed.

(** ** Running the methods *)

Lemma set_fan_speed_known (device : Device) (name : string) (n : Z) (w : World) :
  FAN_SPEEDS !! name = Some n →
  set_fan_speed device name w
  = (command_reply device (device_calls w) (CallSetFanSpeed n),
     {| entity := entity w;
        device_calls := device_calls w ++ [CallSetFanSpeed n];
        logged := logged w |}).
Proof.
  intros Hl. unfold set_fan_speed.
  rewrite dict_contains_lookup, Hl. simpl.
  unfold mbind, Py_bind, dict_getitem. rewrite Hl. reflexivity.
Qed.

Lemma set_fan_speed_invalid (device : Device) (name : string) (w : World) :
  FAN_SPEEDS !! name = None →
  set_fan_speed device name w
  = (Returns tt,
     {| entity := entity w; device_calls := device_calls w;
        logged := logged w ++ ["Invalid fan speed " +:+ name] |}).
Proof.
  intros Hl. unfold set_fan_speed.
  rewrite dict_contains_lookup, Hl. reflexivity.
Qed.

Lemma update_returns (device : Device) (w : World) (st : DreameStatus) :
  status_reply device (device_calls w) = Returns st →
  update device w
  = (Returns tt,
     {| entity :=
          {| _name := _name (entity w); _available := true;
             _battery := battery st; _fan_speed := st_fan_speed st;
             _status := status st; _error := error st;
             _clean_time := last_clean st; _clean_area := area st |};
        device_calls := device_calls w ++ [CallStatus];
        logged := logged w |}).
Proof.
  intros Hr. unfold update, try_except_DeviceException, mbind, Py_bind.
  unfold device_status. rewrite Hr. reflexivity.
Qed.

Lemma update_device_exception (device : Device) (w : World) (msg : string) :
  status_reply device (device_calls w) = Raises (DeviceException msg) →
  update device w
  = (Returns tt,
     {| entity := set_available false (entity w);
        device_calls := device_calls w ++ [CallStatus];
        logged := logged w ++ ["Update failed: " +:+ msg] |}).
Proof.
  intros Hr. unfold update, try_except_DeviceException, mbind, Py_bind.
  unfold device_status. rewrite Hr. reflexivity.
Qed.

Lemma update_other_exception (device : Device) (w : World) (msg : string) :
  status_reply device (device_calls w) = Raises (OtherException msg) →
  update device w
  = (Raises (OtherException msg),
     {| entity := entity w;
        device_calls := device_calls w ++ [CallStatus];
        logged := logged w |}).
Proof.
  intros Hr. unfold update, try_except_DeviceException, mbind, Py_bind.
  unfold device_status. rewrite Hr. reflexivity.
Qed.

(** ** Setting the fan speed *)

(** C2: for every name of the fixed table (Silent, Standard, Medium,
    Turbo), [set_fan_speed] makes exactly the device call
    [set_fan_speed(n)] with [n] the mapped integer (0, 1, 2, 3); for every
    other name it makes no device call and returns without raising. *)
Theorem set_fan_speed_mapping (device : Device) (w : World) :
  (∀ (name : string) (n : Z), (name, n) ∈ fan_speed_table →
     FAN_SPEEDS !! name = Some n
     ∧ device_calls (set_fan_speed device name w).2
       = device_calls w ++ [CallSetFanSpeed n])
  ∧ (∀ name : string, name ∉ fan_speed_table.*1 →
       (set_fan_speed device name w).1 = Returns tt
       ∧ device_calls (set_fan_speed device name w).2 = device_calls w).
Proof.
  split.
  - intros name n Hin. apply FAN_SPEEDS_lookup in Hin as Hl.
    by rewrite (set_fan_speed_known _ _ n).
  - intros name Hn. apply FAN_SPEEDS_unknown in Hn.
    by rewrite set_fan_speed_invalid.
Qed.

Lemma set_fan_speed_mapping_turbo_max :
  (FAN_SPEEDS !! "Turbo" = Some 3
   ∧ device_calls (set_fan_speed healthy_device "Turbo" polled_world).2
     = [CallStatus] ++ [CallSetFanSpeed 3])
  ∧ (set_fan_speed healthy_device "Max" polled_world).1 = Returns tt
  ∧ device_calls (set_fan_speed healthy_device "Max" polled_world).2
    = [CallStatus].
Proof.
  split.
  - apply (proj1 (set_fan_speed_mapping healthy_device polled_world) "Turbo" 3).
    unfold fan_speed_table. do 3 apply list_elem_of_further.
    apply list_elem_of_here.
  - apply (proj2 (set_fan_speed_mapping healthy_device polled_world) "Max").
    apply (bool_decide_unpack _). vm_compute. exact I.
Defined.

(** ** Polling the device *)

(** C3: whatever the entity's state before, [update] leaves the available
    flag [False] when the status call raises [DeviceException] and [True]
    when the status call succeeds. *)
Theorem update_available (device : Device) (w : World) :
  (∀ msg : string,
     status_reply device (device_calls w) = Raises (DeviceException msg) →
     available (entity (update device w).2) = false)
  ∧ (∀ st : DreameStatus,
       status_reply device (device_calls w) = Returns st →
       available (entity (update device w).2) = true).
Proof.
  split.
  - intros msg Hr. by rewrite (update_device_exception _ _ msg).
  - intros st Hr. by rewrite (update_returns _ _ st).
Qed.

Lemma update_available_samples :
  available (entity (update offline_device polled_world).2) = false
  ∧ available (entity (update healthy_device fresh_world).2) = true.
Proof.
  split.
  - apply (proj1 (update_available offline_device polled_world) "timeout").
    reflexivity.
  - apply (proj2 (update_available healthy_device fresh_world) docked_status).
    reflexivity.
Defined.

(** C4: when the status call raises [DeviceException], [update] returns
    normally, battery, fan speed, status, error, clean time and clean area
    keep their prior values, and the device was called exactly once (the
    failed status call: no retry). *)
Theorem update_failure_frame (device : Device) (w : World) (msg : string) :
  status_reply device (device_calls w) = Raises (DeviceException msg) →
  (update device w).1 = Returns tt
  ∧ _battery (entity (update device w).2) = _battery (entity w)
  ∧ _fan_speed (entity (update device w).2) = _fan_speed (entity w)
  ∧ _status (entity (update device w).2) = _status (entity w)
  ∧ _error (entity (update device w).2) = _error (entity w)
  ∧ _clean_time (entity (update device w).2) = _clean_time (entity w)
  ∧ _clean_area (entity (update device w).2) = _clean_area (entity w)
  ∧ device_calls (update device w).2 = device_calls w ++ [CallStatus].
Proof.
  intros Hr. rewrite (update_device_exception _ _ msg) by done.
  by repeat split.
Qed.

Lemma update_failure_frame_offline :
  (update offline_device polled_world).1 = Returns tt
  ∧ _battery (entity (update offline_device polled_world).2) = Some 87
  ∧ _fan_speed (entity (update offline_device polled_world).2) = Some 2
  ∧ _status (entity (update offline_device polled_world).2) = Some 6
  ∧ _error (entity (update offline_device polled_world).2) = Some 0
  ∧ _clean_time (entity (update offline_device polled_world).2) = Some 15
  ∧ _clean_area (entity (update offline_device polled_world).2) = Some 12
  ∧ device_calls (update offline_device polled_world).2
    = [CallStatus] ++ [CallStatus].
Proof.
  apply (update_failure_frame offline_device polled_world "timeout").
  reflexivity.
Defined.

Lemma attrs_error_code_iff (self : Xiaomi1CVacuum) (e : Z) :
  extra_state_attributes self !! "error_code" = Some e
  ↔ _error self = Some e ∧ e ≠ 0%Z.
Proof.
  rewrite attrs_error_code.
  destruct (_error self) as [e'|]; simpl.
  - case_bool_decide as He; split.
    + intros [= <-]. by split.
    + by intros [[= <-] _].
    + done.
    + intros [[= <-] Hz]. by destruct He.
  - split; [done | by intros [? _]].
Qed.

Lemma fan_speed_table_entry (self : Xiaomi1CVacuum) (name : string) (n : Z) :
  _fan_speed self = Some n → (name, n) ∈ fan_speed_table →
  fan_speed self = Some name.
Proof.
  intros Hf Hin. unfold fan_speed, dict_get.
  by rewrite Hf, (inverse_lookup name n).
Qed.

(** C6: when the status call returns [st], the stored battery, fan speed,
    status, error, clean time and clean area are the attributes
    [battery], [fan_speed], [status], [error], [last_clean] and [area] of
    [st], and the polled values are what the platform then sees:
    [battery_level] is [st.battery]; [activity] is the table's activity
    for [st.status] ([IDLE] for a code outside 1..6, [None] for [None]);
    [fan_speed] is the name mapped to [st.fan_speed] ("Standard" for an
    integer outside 0..3, [None] for [None]); [extra_state_attributes]
    holds [st.last_clean] under "cleaning_time", [st.area] under
    "cleaning_area", [st.error] under "error_code" when it is neither
    [None] nor 0, and nothing else.  The four properties depend on
    nothing but the six stored values: any entity storing the same six
    values shows the same four properties. *)
Theorem update_success_state (device : Device) (w : World) (st : DreameStatus) :
  status_reply device (device_calls w) = Returns st →
  (_battery (entity (update device w).2) = battery st
   ∧ _fan_speed (entity (update device w).2) = st_fan_speed st
   ∧ _status (entity (update device w).2) = status st
   ∧ _error (entity (update device w).2) = error st
   ∧ _clean_time (entity (update device w).2) = last_clean st
   ∧ _clean_area (entity (update device w).2) = area st)
  ∧ battery_level (entity (update device w).2) = battery st
  ∧ ((status st = None → activity (entity (update device w).2) = None)
     ∧ (∀ (c : Z) (a : VacuumActivity),
          status st = Some c → (c, a) ∈ activity_table →
          activity (entity (update device w).2) = Some a)
     ∧ (∀ c : Z,
          status st = Some c → ¬ (1 ≤ c ≤ 6)%Z →
          activity (entity (update device w).2) = Some IDLE))
  ∧ ((st_fan_speed st = None → fan_speed (entity (update device w).2) = None)
     ∧ (∀ (name : string) (n : Z),
          st_fan_speed st = Some n → (name, n) ∈ fan_speed_table →
          fan_speed (entity (update device w).2) = Some name)
     ∧ (∀ n : Z,
          st_fan_speed st = Some n → ¬ (0 ≤ n ≤ 3)%Z →
          fan_speed (entity (update device w).2) = Some "Standard"))
  ∧ (extra_state_attributes (entity (update device w).2) !! "cleaning_time"
       = last_clean st
     ∧ extra_state_attributes (entity (update device w).2) !! "cleaning_area"
       = area st
     ∧ (∀ e : Z,
          extra_state_attributes (entity (update device w).2) !! "error_code"
            = Some e
          ↔ error st = Some e ∧ e ≠ 0%Z)
     ∧ (∀ key : string,
          key ∉ ["cleaning_time"; "cleaning_area"; "error_code"] →
          extra_state_attributes (entity (update device w).2) !! key = None))
  ∧ (∀ other : Xiaomi1CVacuum,
       _battery other = battery st →
       _fan_speed other = st_fan_speed st →
       _status other = status st →
       _error other = error st →
       _clean_time other = last_clean st →
       _clean_area other = area st →
       battery_level (entity (update device w).2) = battery_level other
       ∧ activity (entity (update device w).2) = activity other
       ∧ fan_speed (entity (update device w).2) = fan_speed other
       ∧ extra_state_attributes (entity (update device w).2)
         = extra_state_attributes other).
Proof.
  intros Hr. rewrite (update_returns _ _ st) by done. simpl.
  split; [by repeat split |].
  split; [done |].
  split; [| split; [| split ]].
  - split; [| split ].
    + intros Hs. unfold activity. simpl. by rewrite Hs.
    + intros c a Hs Hin. by apply (activity_table_entry _ c a).
    + intros c Hs Hc. unfold activity, dict_get. simpl.
      by rewrite Hs, STATUS_TO_ACTIVITY_outside.
  - split; [| split ].
    + intros Hf. unfold fan_speed. simpl. by rewrite Hf.
    + intros name n Hf Hin. by apply (fan_speed_table_entry _ name n).
    + intros n Hf Hn. unfold fan_speed, dict_get. simpl.
      by rewrite Hf, inverse_outside.
  - split; [apply attrs_cleaning_time |].
    split; [apply attrs_cleaning_area |].
    split; [intros e; apply attrs_error_code_iff |].
    intros key Hkey. apply attrs_no_other_key; intros ->; destruct Hkey;
      eauto 4 using list_elem_of_here, list_elem_of_further.
  - intros other Hb Hf Hs He Ht Ha.
    unfold battery_level, activity, fan_speed, extra_state_attributes. simpl.
    by rewrite Hb, Hf, Hs, He, Ht, Ha.
Qed.

Lemma update_success_state_healthy :
  (_battery (entity (update healthy_device fresh_world).2) = Some 87
   ∧ _fan_speed (entity (update healthy_device fresh_world).2) = Some 2
   ∧ _status (entity (update healthy_device fresh_world).2) = Some 6
   ∧ _error (entity (update healthy_device fresh_world).2) = Some 0
   ∧ _clean_time (entity (update healthy_device fresh_world).2) = Some 15
   ∧ _clean_area (entity (update healthy_device fresh_world).2) = Some 12)
  ∧ battery_level (entity (update healthy_device fresh_world).2) = Some 87
  ∧ activity (entity (update healthy_device fresh_world).2) = Some DOCKED
  ∧ fan_speed (entity (update healthy_device fresh_world).2) = Some "Medium"
  ∧ extra_state_attributes (entity (update healthy_device fresh_world).2)
      !! "cleaning_time" = Some 15
  ∧ extra_state_attributes (entity (update healthy_device fresh_world).2)
      !! "cleaning_area" = Some 12
  ∧ extra_state_attributes (entity (update healthy_device fresh_world).2)
      !! "error_code" = None.
Proof.
  destruct (update_success_state healthy_device fresh_world docked_status
              eq_refl)
    as (Hstored & Hbattery & (_ & Hactivity & _) & (_ & Hfan & _)
        & (Htime & Harea & _ & Hother) & _).
  split; [exact Hstored |]. split; [exact Hbattery |].
  split.
  { apply (Hactivity 6 DOCKED); [reflexivity |].
    unfold activity_table. do 5 apply list_elem_of_further.
    apply list_elem_of_here. }
  split.
  { apply (Hfan "Medium" 2); [reflexivity |].
    unfold fan_speed_table. do 2 apply list_elem_of_further.
    apply list_elem_of_here. }
  split; [exact Htime |]. split; [exact Harea |].
  vm_compute. reflexivity.
Defined.

(** ** Round trip of the fan speed *)

(** C8: every name of [fan_speed_list] is mapped to an integer that the
    reversed dictionary maps back to that name, and the mapping is
    injective; hence when a successful [update] reads back the integer
    that [set_fan_speed name] sent, [fan_speed] is [name].  A stored
    integer outside 0..3 reads as "Standard", and [fan_speed] is [None]
    exactly when the stored fan speed is [None]. *)
Theorem fan_speed_round_trip (self : Xiaomi1CVacuum) (device : Device) :
  (∀ name : string, name ∈ fan_speed_list self →
     ∃ n : Z, FAN_SPEEDS !! name = Some n
              ∧ invert_items FAN_SPEEDS_items !! n = Some name)
  ∧ (∀ (name1 name2 : string) (n : Z),
       FAN_SPEEDS !! name1 = Some n → FAN_SPEEDS !! name2 = Some n →
       name1 = name2)
  ∧ (∀ (name : string) (n : Z) (w w' : World) (st : DreameStatus),
       name ∈ fan_speed_list self →
       last (device_calls (set_fan_speed device name w).2)
         = Some (CallSetFanSpeed n) →
       status_reply device (device_calls w') = Returns st →
       st_fan_speed st = Some n →
       fan_speed (entity (update device w').2) = Some name)
  ∧ (∀ n : Z, _fan_speed self = Some n → ¬ (0 ≤ n ≤ 3)%Z →
       fan_speed self = Some "Standard")
  ∧ (fan_speed self = None ↔ _fan_speed self = None).
Proof.
  assert (Hlist : ∀ name : string, name ∈ fan_speed_list self →
            ∃ n : Z, (name, n) ∈ fan_speed_table).
  { intros name Hin. unfold fan_speed_list in Hin.
    apply list_elem_of_fmap in Hin as [[k n] [-> Hin]]. by exists n. }
  split; [| split; [| split; [| split ]]].
  - intros name Hin. destruct (Hlist name Hin) as [n Hn]. exists n.
    split; [by apply FAN_SPEEDS_lookup | by apply inverse_lookup].
  - intros name1 name2 n H1 H2.
    apply FAN_SPEEDS_lookup_inv, inverse_lookup in H1.
    apply FAN_SPEEDS_lookup_inv, inverse_lookup in H2. congruence.
  - intros name n w w' st Hin Hsent Hr Hf.
    destruct (Hlist name Hin) as [m Hm].
    rewrite (set_fan_speed_known _ _ m) in Hsent by by apply FAN_SPEEDS_lookup.
    simpl in Hsent. rewrite last_snoc in Hsent. simplify_eq.
    rewrite (update_returns _ _ st) by done.
    unfold fan_speed, dict_get. simpl.
    by rewrite Hf, (inverse_lookup name n).
  - intros n Hs Hn. unfold fan_speed, dict_get.
    by rewrite Hs, inverse_outside.
  - unfold fan_speed. destruct (_fan_speed self); split; intros; by simplify_eq.
Qed.

Lemma fan_speed_round_trip_turbo :
  fan_speed (entity (update turbo_device polled_world).2) = Some "Turbo".
Proof.
  apply (proj1 (proj2 (proj2
           (fan_speed_round_trip (entity fresh_world) turbo_device)))
           "Turbo" 3 fresh_world polled_world turbo_status).
  - unfold fan_speed_list, FAN_SPEEDS_items. simpl.
    do 3 apply list_elem_of_further. apply list_elem_of_here.
  - vm_compute. reflexivity.
  - reflexivity.
  - reflexivity.
Defined.

Example fan_speed_out_of_range :
  fan_speed (set_fan_speed_attr (Some 7) (init "v")) = Some "Standard".
Proof. by vm_compute. Qed.

(** ** Commands *)

Lemma device_command_run (device : Device) (call : DeviceCall) (w : World) :
  device_calls (device_command device call w).2 = device_calls w ++ [call]
  ∧ entity (device_command device call w).2 = entity w.
Proof. done. Qed.

Lemma run_command_entity (device : Device) (c : Command) (w : World) :
  entity (run_command device c w).2 = entity w.
Proof.
  destruct c as [| | | | | name | command params]; simpl; try done.
  destruct (FAN_SPEEDS !! name) as [n|] eqn:Hl.
  - by rewrite (set_fan_speed_known _ _ n).
  - by rewrite set_fan_speed_invalid.
Qed.

(** C5, as stated, fails: [set_fan_speed] with a name that is not in
    [FAN_SPEEDS] is a platform command that makes no device call. *)
Lemma set_fan_speed_max_not_delegated :
  ¬ delegates_once healthy_device (CmdSetFanSpeed "Max") fresh_world.
Proof.
  intros (call & _ & Hcalls & _). vm_compute in Hcalls.
  apply (f_equal length) in Hcalls. discriminate Hcalls.
Qed.

(** C5, amended: no command changes the entity; every command except a
    [set_fan_speed] with an unknown name makes exactly one device call, on
    the method it is delegated to (start, stop, stop_sweeping,
    return_home, find, set_fan_speed, raw_command); a [set_fan_speed] with
    an unknown name makes no device call. *)
Theorem command_delegation (device : Device) (c : Command) (w : World) :
  entity (run_command device c w).2 = entity w
  ∧ (names_known_speed c → delegates_once device c w)
  ∧ (¬ names_known_speed c →
       device_calls (run_command device c w).2 = device_calls w).
Proof.
  split; [apply run_command_entity |]. split.
  - intros Hk. unfold delegates_once.
    destruct c as [| | | | | name | command params]; simpl.
    + by exists CallStart.
    + by exists CallStop.
    + by exists CallStopSweeping.
    + by exists CallReturnHome.
    + by exists CallFind.
    + unfold names_known_speed in Hk.
      apply list_elem_of_fmap in Hk as [[k n] [-> Hin]]. simpl.
      exists (CallSetFanSpeed n).
      by rewrite (set_fan_speed_known _ _ n) by by apply FAN_SPEEDS_lookup.
    + by exists (CallRawCommand command (params_or_empty params)).
  - intros Hk.
    destruct c as [| | | | | name | command params];
      try by destruct Hk.
    unfold names_known_speed in Hk. simpl.
    by rewrite set_fan_speed_invalid by by apply FAN_SPEEDS_unknown.
Qed.

Lemma command_delegation_turbo :
  delegates_once healthy_device (CmdSetFanSpeed "Turbo") polled_world.
Proof.
  apply (proj1 (proj2
           (command_delegation healthy_device (CmdSetFanSpeed "Turbo")
              polled_world))).
  unfold names_known_speed, fan_speed_table. simpl.
  do 3 apply list_elem_of_further. apply list_elem_of_here.
Defined.

Example pause_delegated :
  run_command offline_device CmdPause polled_world
  = (Raises (DeviceException "timeout"),
     {| entity := entity polled_world;
        device_calls := [CallStatus; CallStopSweeping];
        logged := [] |}).
Proof. by vm_compute. Qed.

Example send_command_default_params :
  device_calls
    (run_command healthy_device (CmdSendCommand "get_prop" PNone) fresh_world).2
  = [CallRawCommand "get_prop" (PList [])].
Proof. by vm_compute. Qed.

(** * Further properties of the entity *)

(** ** What [update] and the commands do with exceptions *)

(** X1: [update] catches nothing but [DeviceException].  When the status
    call raises anything else, [update] raises that same exception, the
    entity is left exactly as it was (the available flag is not cleared),
    nothing is logged and the device was called once. *)
Theorem update_other_exception_propagates
    (device : Device) (w : World) (msg : string) :
  status_reply device (device_calls w) = Raises (OtherException msg) →
  (update device w).1 = Raises (OtherException msg)
  ∧ entity (update device w).2 = entity w
  ∧ logged (update device w).2 = logged w
  ∧ device_calls (update device w).2 = device_calls w ++ [CallStatus].
Proof.
  intros Hr. by rewrite (update_other_exception _ _ msg).
Qed.

Lemma update_other_exception_broken :
  (update broken_device polled_world).1 = Raises (OtherException "OSError")
  ∧ entity (update broken_device polled_world).2 = entity polled_world
  ∧ logged (update broken_device polled_world).2 = logged polled_world
  ∧ device_calls (update broken_device polled_world).2
    = device_calls polled_world ++ [CallStatus].
Proof.
  apply (update_other_exception_propagates broken_device polled_world "OSError").
  reflexivity.
Defined.

Lemma run_command_call (device : Device) (c : Command) (call : DeviceCall)
    (w : World) :
  call_of_command c = Some call →
  run_command device c w
  = (command_reply device (device_calls w) call,
     {| entity := entity w; device_calls := device_calls w ++ [call];
        logged := logged w |}).
Proof.
  destruct c as [| | | | | name | command params]; simpl;
    try (intros [= <-]; reflexivity).
  destruct (FAN_SPEEDS !! name) as [n|] eqn:Hl; simpl; [| done].
  intros [= <-]. by apply set_fan_speed_known.
Qed.

Lemma run_command_no_call (device : Device) (c : Command) (w : World) :
  call_of_command c = None →
  ∃ name : string,
    c = CmdSetFanSpeed name
    ∧ FAN_SPEEDS !! name = None
    ∧ run_command device c w
      = (Returns tt,
         {| entity := entity w; device_calls := device_calls w;
            logged := logged w ++ ["Invalid fan speed " +:+ name] |}).
Proof.
  destruct c as [| | | | | name | command params]; simpl; try done.
  destruct (FAN_SPEEDS !! name) as [n|] eqn:Hl; simpl; [done |].
  intros _. exists name. by rewrite set_fan_speed_invalid.
Qed.

(** X2: a command raises exactly when the device call it makes raises,
    and then it raises the device's exception: the commands catch
    nothing, a [DeviceException] included, and add no exception of their
    own (the lookup [FAN_SPEEDS[fan_speed]] never fails, the guard before
    it sees to that). *)
Theorem command_raises_iff_device_raises
    (device : Device) (c : Command) (w : World) (exc : PyExc) :
  (run_command device c w).1 = Raises exc
  ↔ ∃ call : DeviceCall,
      call_of_command c = Some call
      ∧ command_reply device (device_calls w) call = Raises exc.
Proof.
  destruct (call_of_command c) as [call|] eqn:Hc.
  - rewrite (run_command_call _ _ call) by done. simpl. split.
    + intros Hr. by exists call.
    + by intros (call' & [= <-] & Hr).
  - destruct (run_command_no_call device c w Hc) as (name & _ & _ & ->).
    simpl. split; [done | by intros (call & ? & _)].
Qed.

Lemma command_raises_iff_offline :
  (run_command offline_device CmdStart polled_world).1
  = Raises (DeviceException "timeout").
Proof.
  apply (command_raises_iff_device_raises offline_device CmdStart polled_world).
  exists CallStart. split; reflexivity.
Defined.

(** X3: a command that fails at the device leaves the entity untouched:
    unlike a failed [update], it does not clear the available flag, and it
    logs nothing. *)
Theorem command_failure_keeps_available
    (device : Device) (c : Command) (w : World) (exc : PyExc) :
  (run_command device c w).1 = Raises exc →
  available (entity (run_command device c w).2) = available (entity w)
  ∧ entity (run_command device c w).2 = entity w
  ∧ logged (run_command device c w).2 = logged w.
Proof.
  destruct (call_of_command c) as [call|] eqn:Hc.
  - by rewrite (run_command_call _ _ call).
  - by destruct (run_command_no_call device c w Hc) as (name & _ & _ & ->).
Qed.

Lemma command_failure_keeps_available_offline :
  available (entity (run_command offline_device CmdLocate polled_world).2)
    = available (entity polled_world)
  ∧ entity (run_command offline_device CmdLocate polled_world).2
    = entity polled_world
  ∧ logged (run_command offline_device CmdLocate polled_world).2
    = logged polled_world.
Proof.
  apply (command_failure_keeps_available offline_device CmdLocate polled_world
           (DeviceException "timeout")).
  reflexivity.
Defined.

(** ** What is logged *)

(** X4: [update] logs nothing when the status call returns and exactly
    one record, "Update failed: " followed by the exception's text, when
    it raises [DeviceException]. *)
Theorem update_log (device : Device) (w : World) :
  (∀ st : DreameStatus,
     status_reply device (device_calls w) = Returns st →
     logged (update device w).2 = logged w)
  ∧ (∀ msg : string,
       status_reply device (device_calls w) = Raises (DeviceException msg) →
       logged (update device w).2 = logged w ++ ["Update failed: " +:+ msg]).
Proof.
  split.
  - intros st Hr. by rewrite (update_returns _ _ st).
  - intros msg Hr. by rewrite (update_device_exception _ _ msg).
Qed.

Lemma update_log_samples :
  logged (update healthy_device fresh_world).2 = logged fresh_world
  ∧ logged (update offline_device polled_world).2
    = logged polled_world ++ ["Update failed: timeout"].
Proof.
  split.
  - apply (proj1 (update_log healthy_device fresh_world) docked_status).
    reflexivity.
  - apply (proj2 (update_log offline_device polled_world) "timeout").
    reflexivity.
Defined.

(** X5: a [set_fan_speed] whose name is not in [fan_speed_list] appends
    exactly one record to the log, "Invalid fan speed " followed by the
    rejected name; every other command leaves the log unchanged. *)
Theorem command_log (device : Device) (c : Command) (w : World) :
  (∀ name : string,
     c = CmdSetFanSpeed name →
     name ∉ fan_speed_list (entity w) →
     logged (run_command device c w).2
     = logged w ++ ["Invalid fan speed " +:+ name])
  ∧ ((∀ name : string,
        c = CmdSetFanSpeed name → name ∈ fan_speed_list (entity w)) →
     logged (run_command device c w).2 = logged w).
Proof.
  split.
  - intros name -> Hn. simpl.
    by rewrite set_fan_speed_invalid by by apply FAN_SPEEDS_unknown.
  - intros Hknown. destruct (call_of_command c) as [call|] eqn:Hc.
    + by rewrite (run_command_call _ _ call).
    + destruct (run_command_no_call device c w Hc) as (name & Heq & Hl & _).
      specialize (Hknown name Heq). unfold fan_speed_list in Hknown.
      apply list_elem_of_fmap in Hknown as [[k n] [-> Hin]].
      apply FAN_SPEEDS_lookup in Hin. simpl in Hl. congruence.
Qed.

Lemma command_log_samples :
  logged (run_command healthy_device (CmdSetFanSpeed "Max") polled_world).2
    = logged polled_world ++ ["Invalid fan speed " +:+ "Max"]
  ∧ logged (run_command healthy_device (CmdSetFanSpeed "Turbo") polled_world).2
    = logged polled_world
  ∧ logged (run_command offline_device CmdLocate polled_world).2
    = logged polled_world.
Proof.
  split; [| split].
  - apply (proj1 (command_log healthy_device (CmdSetFanSpeed "Max")
                    polled_world) "Max").
    + reflexivity.
    + apply (bool_decide_unpack _). vm_compute. exact I.
  - apply (proj2 (command_log healthy_device (CmdSetFanSpeed "Turbo")
                    polled_world)).
    intros name Heq. injection Heq as <-.
    unfold fan_speed_list, FAN_SPEEDS_items. simpl.
    do 3 apply list_elem_of_further. apply list_elem_of_here.
  - apply (proj2 (command_log offline_device CmdLocate polled_world)).
    intros name Heq. discriminate Heq.
Defined.

(** ** Arguments sent to the device *)

(** X6: [send_command] makes one [raw_command] call with the command
    name unchanged; the parameters go through unchanged when they are a
    non-empty list or dict, and become the empty list when they are
    [None], an empty list or an empty dict.  So the device never receives
    [None] or an empty dict. *)
Theorem send_command_params
    (device : Device) (command : string) (params : Params) (w : World) :
  ∃ sent : Params,
    device_calls (send_command device command params w).2
      = device_calls w ++ [CallRawCommand command sent]
    ∧ (params ∈ [PNone; PList []; PDict []] → sent = PList [])
    ∧ (params ∉ [PNone; PList []; PDict []] → sent = params)
    ∧ sent ≠ PNone
    ∧ sent ≠ PDict [].
Proof.
  exists (params_or_empty params). split; [done |].
  assert (Hmem : ∀ p : Params,
            p ∈ [PNone; PList []; PDict []]
            ↔ p = PNone ∨ p = PList [] ∨ p = PDict []).
  { intros p. rewrite !elem_of_cons, elem_of_nil. tauto. }
  rewrite Hmem.
  destruct params as [| [| x items] | [| kv items]];
    (split; [ intros [Hp | [Hp | Hp]]; first [ discriminate Hp | reflexivity ]
            | split; [ intros Hn; first [ reflexivity | destruct Hn; auto ]
                     | split; discriminate ] ]).
Qed.

Lemma send_command_params_empty_dict :
  ∃ sent : Params,
    device_calls
      (send_command healthy_device "set_properties" (PDict []) polled_world).2
      = device_calls polled_world ++ [CallRawCommand "set_properties" sent]
    ∧ (PDict [] ∈ [PNone; PList []; PDict []] → sent = PList [])
    ∧ (PDict [] ∉ [PNone; PList []; PDict []] → sent = PDict [])
    ∧ sent ≠ PNone
    ∧ sent ≠ PDict [].
Proof.
  apply (send_command_params healthy_device "set_properties" (PDict [])
           polled_world).
Defined.

(** ** Fan speed names *)

Lemma inverse_lookup_inv (name : string) (n : Z) :
  invert_items FAN_SPEEDS_items !! n = Some name →
  (name, n) ∈ fan_speed_table.
Proof.
  unfold invert_items, FAN_SPEEDS_items, fan_speed_table. simpl.
  rewrite !lookup_insert, lookup_empty.
  repeat case_decide; intros; simplify_eq;
    eauto 6 using list_elem_of_here, list_elem_of_further.
Qed.

(** X7: whatever integer is stored, the fan speed the entity reports is
    one of the names of [fan_speed_list]. *)
Theorem fan_speed_in_list (self : Xiaomi1CVacuum) (name : string) :
  fan_speed self = Some name → name ∈ fan_speed_list self.
Proof.
  unfold fan_speed, dict_get, fan_speed_list.
  destruct (_fan_speed self) as [n|]; [| done].
  destruct (invert_items FAN_SPEEDS_items !! n) as [k|] eqn:Hl;
    intros [= <-].
  - apply inverse_lookup_inv in Hl.
    by apply (list_elem_of_fmap_2 fst) in Hl.
  - simpl. apply list_elem_of_further, list_elem_of_here.
Qed.

Lemma fan_speed_in_list_out_of_range :
  "Standard" ∈ fan_speed_list (set_fan_speed_attr (Some 42) (init "Xiaomi 1C")).
Proof.
  apply (fan_speed_in_list (set_fan_speed_attr (Some 42) (init "Xiaomi 1C"))).
  vm_compute. reflexivity.
Defined.

(** X8: the names offered in [fan_speed_list] are exactly the names
    [set_fan_speed] accepts: a name is in the list if and only if
    [set_fan_speed] with that name makes a device call. *)
Theorem fan_speed_list_accepted
    (self : Xiaomi1CVacuum) (device : Device) (name : string) (w : World) :
  name ∈ fan_speed_list self
  ↔ ∃ n : Z, device_calls (set_fan_speed device name w).2
             = device_calls w ++ [CallSetFanSpeed n].
Proof.
  unfold fan_speed_list. split.
  - intros Hin. apply list_elem_of_fmap in Hin as [[k n] [-> Hin]].
    exists n. by rewrite (set_fan_speed_known _ _ n) by by apply FAN_SPEEDS_lookup.
  - intros [n Hcalls].
    destruct (FAN_SPEEDS !! name) as [m|] eqn:Hl.
    + apply FAN_SPEEDS_lookup_inv in Hl.
      by apply (list_elem_of_fmap_2 fst) in Hl.
    + rewrite set_fan_speed_invalid in Hcalls by done. simpl in Hcalls.
      apply (f_equal length) in Hcalls. rewrite length_app in Hcalls.
      simpl in Hcalls. lia.
Qed.

Lemma fan_speed_list_accepted_medium :
  ∃ n : Z, device_calls (set_fan_speed healthy_device "Medium" polled_world).2
           = device_calls polled_world ++ [CallSetFanSpeed n].
Proof.
  apply (fan_speed_list_accepted (entity polled_world) healthy_device "Medium"
           polled_world).
  unfold fan_speed_list, FAN_SPEEDS_items. simpl.
  do 2 apply list_elem_of_further. apply list_elem_of_here.
Defined.

(** ** Reading the activity back *)

Lemma STATUS_TO_ACTIVITY_get (c : Z) :
  dict_get STATUS_TO_ACTIVITY c IDLE
  = if decide (c = 1) then CLEANING
    else if decide (c = 3) then PAUSED
    else if decide (c = 4) then ERROR
    else if decide (c = 5) then RETURNING
    else if decide (c = 6) then DOCKED
    else IDLE.
Proof.
  unfold dict_get, STATUS_TO_ACTIVITY.
  rewrite !lookup_insert, lookup_empty.
  repeat case_decide; simplify_eq; done.
Qed.

(** X9: each activity but [IDLE] stands for exactly one status code:
    [CLEANING] for 1, [PAUSED] for 3, [ERROR] for 4, [RETURNING] for 5 and
    [DOCKED] for 6; [IDLE] stands for every other stored code (2 and all
    codes the table does not know). *)
Theorem activity_inverse (self : Xiaomi1CVacuum) :
  (activity self = Some CLEANING ↔ _status self = Some 1)
  ∧ (activity self = Some PAUSED ↔ _status self = Some 3)
  ∧ (activity self = Some ERROR ↔ _status self = Some 4)
  ∧ (activity self = Some RETURNING ↔ _status self = Some 5)
  ∧ (activity self = Some DOCKED ↔ _status self = Some 6)
  ∧ (activity self = Some IDLE
     ↔ ∃ c : Z, _status self = Some c ∧ c ∉ [1; 3; 4; 5; 6]).
Proof.
  unfold activity. destruct (_status self) as [c|].
  - rewrite STATUS_TO_ACTIVITY_get.
    repeat case_decide; subst;
      (repeat split; try done; try (intros [= ?]; done));
      try (intros (c' & [= <-] & Hn); destruct Hn;
           eauto 6 using list_elem_of_here, list_elem_of_further);
      try (intros _; eexists; split; [done |];
           intros Hin; table_cases Hin).
  - repeat split; try done. by intros (c & ? & _).
Qed.

Lemma activity_docked_iff (self : Xiaomi1CVacuum) :
  activity self = Some DOCKED ↔ _status self = Some 6.
Proof.
  unfold activity. destruct (_status self) as [c|]; [| done].
  rewrite STATUS_TO_ACTIVITY_get.
  repeat case_decide; subst; split; intros Heq; by simplify_eq.
Qed.

(** X10: the battery icon is drawn as charging exactly when the reported
    activity is [DOCKED], and for the battery level that [battery_level]
    reports. *)
Theorem battery_icon_charging_iff_docked
    (icon_for_battery_level : option Z → bool → string)
    (self : Xiaomi1CVacuum) :
  battery_icon icon_for_battery_level self
  = icon_for_battery_level (battery_level self)
      (bool_decide (activity self = Some DOCKED)).
Proof.
  unfold battery_icon, battery_level. f_equal.
  apply bool_decide_ext. symmetry. apply activity_docked_iff.
Qed.

(** ** Identity and features *)


Lemma lor_covers_left (a b f : Z) :
  Z.land a f = f → Z.land (Z.lor a b) f = f.
Proof.
  intros Ha. rewrite Z.land_lor_distr_l, Ha.
  apply Z.bits_inj'. intros n Hn.
  rewrite Z.lor_spec, Z.land_spec.
  destruct (Z.testbit f n), (Z.testbit b n); reflexivity.
Qed.

Lemma lor_covers_right (a f : Z) : Z.land (Z.lor a f) f = f.
Proof.
  apply Z.bits_inj'. intros n Hn.
  rewrite Z.land_spec, Z.lor_spec.
  destruct (Z.testbit a n), (Z.testbit f n); reflexivity.
Qed.

(** X12: whatever integers the platform gives its feature flags,
    [supported_features] carries every bit of each of the eight flags the
    module joins (start, stop, pause, return home, fan speed, send
    command, locate, state), and no bit of a flag that shares no bit with
    any of the eight. *)
Theorem supported_features_flags
    (F : VacuumEntityFeature) (self : Xiaomi1CVacuum) :
  (∀ f : Z,
     f ∈ [START F; STOP F; PAUSE F; RETURN_HOME F; FAN_SPEED F;
          SEND_COMMAND F; LOCATE F; STATE F] →
     Z.land (supported_features F self) f = f)
  ∧ (∀ g : Z,
       (∀ f : Z,
          f ∈ [START F; STOP F; PAUSE F; RETURN_HOME F; FAN_SPEED F;
               SEND_COMMAND F; LOCATE F; STATE F] →
          Z.land f g = 0) →
       Z.land (supported_features F self) g = 0).
Proof.
  unfold supported_features, SUPPORT_XIAOMI_1C. split.
  - intros f Hin. table_cases Hin;
      repeat first [ apply lor_covers_right
                   | apply lor_covers_left
                   | apply Z.land_diag ].
  - intros g Hg. rewrite !Z.land_lor_distr_l.
    rewrite !Hg by eauto 9 using list_elem_of_here, list_elem_of_further.
    reflexivity.
Qed.

Lemma supported_features_flags_ha :
  Z.land (supported_features ha_features (init "Xiaomi 1C")) 4 = 4
  ∧ Z.land (supported_features ha_features (init "Xiaomi 1C")) 64 = 0.
Proof.
  split.
  - apply (proj1 (supported_features_flags ha_features (init "Xiaomi 1C")) 4).
    simpl. do 2 apply list_elem_of_further. apply list_elem_of_here.
  - apply (proj2 (supported_features_flags ha_features (init "Xiaomi 1C")) 64).
    intros f Hin. simpl in Hin. table_cases Hin; reflexivity.
Defined.

(** ** Attribute values *)

(** X13: each attribute holds the stored value it is named after:
    "cleaning_time" the stored clean time, "cleaning_area" the stored
    clean area and "error_code" the stored error; an error code that is
    shown is never 0. *)
Theorem extra_state_attributes_values (self : Xiaomi1CVacuum) :
  extra_state_attributes self !! "cleaning_time" = _clean_time self
  ∧ extra_state_attributes self !! "cleaning_area" = _clean_area self
  ∧ (∀ e : Z,
       extra_state_attributes self !! "error_code" = Some e
       ↔ _error self = Some e ∧ e ≠ 0%Z).
Proof.
  split; [apply attrs_cleaning_time |]. split; [apply attrs_cleaning_area |].
  intros e. rewrite attrs_error_code.
  destruct (_error self) as [e'|]; simpl.
  - case_bool_decide as He; split.
    + intros [= <-]. by split.
    + by intros [[= <-] _].
    + done.
    + intros [[= <-] Hz]. by destruct He.
  - split; [done | by intros [? _]].
Qed.

(** ** Sequences of calls *)

Lemma update_calls (device : Device) (w : World) :
  device_calls (update device w).2 = device_calls w ++ [CallStatus].
Proof.
  destruct (status_reply device (device_calls w)) as [st | [msg | msg]] eqn:Hr.
  - by rewrite (update_returns _ _ st).
  - by rewrite (update_device_exception _ _ msg).
  - by rewrite (update_other_exception _ _ msg).
Qed.

Lemma run_op_calls (device : Device) (op : Op) (w : World) :
  device_calls (run_op device op w).2
  = device_calls w ++ omap call_of [op].
Proof.
  destruct op as [| c]; simpl; [apply update_calls |].
  destruct (call_of_command c) as [call|] eqn:Hc; simpl.
  - by rewrite (run_command_call _ _ call).
  - destruct (run_command_no_call device c w Hc) as (name & _ & _ & ->).
    simpl. by rewrite app_nil_r.
Qed.

Lemma run_ops_cons (device : Device) (op : Op) (ops : list Op) (w : World) :
  run_ops device (op :: ops) w = run_ops device ops (run_op device op w).2.
Proof. reflexivity. Qed.

(** X14: over any sequence of polls and commands, the device receives
    the calls in the order the platform made them and nothing else: one
    [status] call per poll, one call per command, none for a
    [set_fan_speed] with an unknown name.  Nothing is retried, repeated,
    reordered or dropped, whatever the device answers. *)
Theorem run_ops_calls (device : Device) (ops : list Op) (w : World) :
  device_calls (run_ops device ops w) = device_calls w ++ omap call_of ops.
Proof.
  revert w. induction ops as [| op ops IH]; intros w.
  - simpl. by rewrite app_nil_r.
  - rewrite run_ops_cons, IH, run_op_calls, <- app_assoc.
    f_equal. simpl. by destruct (call_of op).
Qed.

Lemma run_op_snapshot (device : Device) (name : string) (op : Op) (w : World) :
  (entity w = init name
   ∨ ∃ (h : list DeviceCall) (st : DreameStatus),
       status_reply device h = Returns st
       ∧ h ++ [CallStatus] `prefix_of` device_calls w
       ∧ entity w = snapshot name (_available (entity w)) st) →
  entity (run_op device op w).2 = init name
  ∨ ∃ (h : list DeviceCall) (st : DreameStatus),
      status_reply device h = Returns st
      ∧ h ++ [CallStatus] `prefix_of` device_calls (run_op device op w).2
      ∧ entity (run_op device op w).2
        = snapshot name (_available (entity (run_op device op w).2)) st.
Proof.
  intros Hinv.
  assert (Hname : _name (entity w) = name).
  { destruct Hinv as [-> | (h & st & _ & _ & ->)]; reflexivity. }
  destruct op as [| c].
  - simpl.
    destruct (status_reply device (device_calls w)) as [st | [msg | msg]] eqn:Hr.
    + right. exists (device_calls w), st.
      rewrite (update_returns _ _ st) by done. simpl.
      split; [done |]. split; [done |]. by rewrite Hname.
    + rewrite (update_device_exception _ _ msg) by done. simpl.
      destruct Hinv as [-> | (h & st & Hst & Hpre & Hent)]; [by left | right].
      exists h, st. split; [done |]. split; [by apply prefix_app_r |].
      by rewrite Hent.
    + rewrite (update_other_exception _ _ msg) by done. simpl.
      destruct Hinv as [? | (h & st & Hst & Hpre & Hent)]; [by left | right].
      exists h, st. split; [done |]. split; [by apply prefix_app_r | done].
  - rewrite run_op_calls. simpl. rewrite run_command_entity.
    destruct Hinv as [? | (h & st & Hst & Hpre & Hent)]; [by left | right].
    exists h, st. split; [done |]. split; [by apply prefix_app_r | done].
Qed.

(** X15: starting from a freshly built entity, after any sequence of
    polls and commands the six state fields are either all still [None]
    or all taken from one and the same status object, one the device
    returned to a status call of this history; values of different polls
    are never mixed, and the name never changes. *)
Theorem run_ops_snapshot
    (device : Device) (name : string) (ops : list Op) (w : World) :
  entity w = init name →
  entity (run_ops device ops w) = init name
  ∨ ∃ (h : list DeviceCall) (st : DreameStatus),
      status_reply device h = Returns st
      ∧ h ++ [CallStatus] `prefix_of` device_calls (run_ops device ops w)
      ∧ entity (run_ops device ops w)
        = snapshot name (_available (entity (run_ops device ops w))) st.
Proof.
  intros Hinit.
  assert (Hinv : entity w = init name
                 ∨ ∃ (h : list DeviceCall) (st : DreameStatus),
                     status_reply device h = Returns st
                     ∧ h ++ [CallStatus] `prefix_of` device_calls w
                     ∧ entity w = snapshot name (_available (entity w)) st)
    by by left.
  clear Hinit. revert w Hinv.
  induction ops as [| op ops IH]; intros w Hinv; [done |].
  rewrite run_ops_cons. by apply IH, run_op_snapshot.
Qed.

Lemma run_ops_snapshot_flaky :
  entity (run_ops flaky_device
            [OpUpdate; OpCommand CmdStart; OpUpdate; OpCommand (CmdSetFanSpeed "Max")]
            fresh_world)
    = init "Xiaomi 1C"
  ∨ ∃ (h : list DeviceCall) (st : DreameStatus),
      status_reply flaky_device h = Returns st
      ∧ h ++ [CallStatus]
          `prefix_of` device_calls
                        (run_ops flaky_device
                           [OpUpdate; OpCommand CmdStart; OpUpdate;
                            OpCommand (CmdSetFanSpeed "Max")]
                           fresh_world)
      ∧ entity (run_ops flaky_device
                  [OpUpdate; OpCommand CmdStart; OpUpdate;
                   OpCommand (CmdSetFanSpeed "Max")]
                  fresh_world)
        = snapshot "Xiaomi 1C"
            (_available
               (entity (run_ops flaky_device
                          [OpUpdate; OpCommand CmdStart; OpUpdate;
                           OpCommand (CmdSetFanSpeed "Max")]
                          fresh_world)))
            st.
Proof.
  apply (run_ops_snapshot flaky_device "Xiaomi 1C"
           [OpUpdate; OpCommand CmdStart; OpUpdate;
            OpCommand (CmdSetFanSpeed "Max")]
           fresh_world).
  reflexivity.
Defined.

Example run_ops_flaky :
  run_ops flaky_device
    [OpUpdate; OpCommand CmdStart; OpUpdate; OpCommand (CmdSetFanSpeed "Max")]
    fresh_world
  = {| entity := snapshot "Xiaomi 1C" true turbo_status;
       device_calls := [CallStatus; CallStart; CallStatus];
       logged := ["Update failed: timeout"; "Invalid fan speed Max"] |}.
Proof. by vm_compute. Qed.

(** X20: a successful poll overwrites every state field: afterwards the
    entity depends on nothing but its name and the status returned, not on
    what it held before or on which device answered. *)
Theorem update_overwrites_state
    (device1 device2 : Device) (w1 w2 : World) (st : DreameStatus) :
  _name (entity w1) = _name (entity w2) →
  status_reply device1 (device_calls w1) = Returns st →
  status_reply device2 (device_calls w2) = Returns st →
  entity (update device1 w1).2 = entity (update device2 w2).2.
Proof.
  intros Hname Hr1 Hr2.
  rewrite (update_returns _ _ st), (update_returns _ _ st) by done.
  simpl. by rewrite Hname.
Qed.

Lemma update_overwrites_state_sample :
  entity (update healthy_device fresh_world).2
  = entity (update healthy_device
              (update offline_device (update turbo_device fresh_world).2).2).2.
Proof.
  apply (update_overwrites_state healthy_device healthy_device fresh_world
           (update offline_device (update turbo_device fresh_world).2).2
           docked_status);
    reflexivity.
Defined.

(** X21: only a poll changes what the entity shows.  Over any sequence
    of commands, whatever the device answers, the entity is unchanged: a
    [set_fan_speed] is not reflected in [fan_speed] until the next
    [update]. *)
Theorem commands_keep_entity
    (device : Device) (commands : list Command) (w : World) :
  entity (run_ops device (OpCommand <$> commands) w) = entity w.
Proof.
  revert w. induction commands as [| c commands IH]; intros w; [done |].
  rewrite fmap_cons, run_ops_cons, IH. simpl. apply run_command_entity.
Qed.

(** ** Setting the platform up *)

(** X16: when [config] holds host, token and name, the client is built
    and [add_entities] returns, [setup_platform] returns [None] having
    logged nothing, built one client from the configured host and token,
    and called [add_entities] once, with
    [update_before_add] set and a single entity: one that carries the
    configured name and the new device, and that until its first poll is
    unavailable and reports no activity, battery level, fan speed or
    attribute. *)
Theorem setup_platform_adds_entity
    (P : Platform) (config : gmap string string) (h : Hass)
    (host token title : string) (device : Device) :
  config !! CONF_HOST P = Some host →
  config !! CONF_TOKEN P = Some token →
  config !! CONF_NAME P = Some title →
  DreameDevice P host token = Returns device →
  add_entities_reply P [(init title, device)] true = Returns tt →
  ∃ vacuum : Xiaomi1CVacuum,
    setup_platform P config h
    = (Returns SetupNone,
       {| constructed := constructed h ++ [(host, token)];
          added := added h ++ [([(vacuum, device)], true)];
          hass_logged := hass_logged h |})
    ∧ name vacuum = title
    ∧ available vacuum = false
    ∧ activity vacuum = None
    ∧ battery_level vacuum = None
    ∧ fan_speed vacuum = None
    ∧ extra_state_attributes vacuum = ∅.
Proof.
  intros Hh Ht Hn Hd Ha. exists (init title).
  unfold setup_platform. rewrite Hh, Ht, Hn, Hd, Ha.
  by repeat split.
Qed.

Lemma setup_platform_adds_entity_sample :
  ∃ vacuum : Xiaomi1CVacuum,
    setup_platform ha_platform sample_config empty_hass
    = (Returns SetupNone,
       {| constructed := constructed empty_hass ++ [("192.168.1.20", "00ff")];
          added := added empty_hass ++ [([(vacuum, healthy_device)], true)];
          hass_logged := hass_logged empty_hass |})
    ∧ name vacuum = "Xiaomi 1C"
    ∧ available vacuum = false
    ∧ activity vacuum = None
    ∧ battery_level vacuum = None
    ∧ fan_speed vacuum = None
    ∧ extra_state_attributes vacuum = ∅.
Proof.
  apply (setup_platform_adds_entity ha_platform sample_config empty_hass
           "192.168.1.20" "00ff" "Xiaomi 1C" healthy_device);
    reflexivity.
Defined.

(** X17: when building the client raises [DeviceException],
    [setup_platform] returns [False] after that one attempt, adds no
    entity and logs one record,
    "Failed to connect to Xiaomi 1C vacuum: " followed by the exception's
    text. *)
Theorem setup_platform_connect_failure
    (P : Platform) (config : gmap string string) (h : Hass)
    (host token name msg : string) :
  config !! CONF_HOST P = Some host →
  config !! CONF_TOKEN P = Some token →
  config !! CONF_NAME P = Some name →
  DreameDevice P host token = Raises (DeviceException msg) →
  setup_platform P config h
  = (Returns SetupFalse,
     {| constructed := constructed h ++ [(host, token)];
        added := added h;
        hass_logged :=
          hass_logged h ++ ["Failed to connect to Xiaomi 1C vacuum: " +:+ msg] |}).
Proof.
  intros Hh Ht Hn Hd. unfold setup_platform.
  by rewrite Hh, Ht, Hn, Hd.
Qed.

Lemma setup_platform_connect_failure_sample :
  setup_platform failing_platform sample_config empty_hass
  = (Returns SetupFalse,
     {| constructed := constructed empty_hass ++ [("192.168.1.20", "00ff")];
        added := added empty_hass;
        hass_logged :=
          hass_logged empty_hass
          ++ ["Failed to connect to Xiaomi 1C vacuum: " +:+ "bad token"] |}).
Proof.
  apply (setup_platform_connect_failure failing_platform sample_config
           empty_hass "192.168.1.20" "00ff" "Xiaomi 1C" "bad token");
    reflexivity.
Defined.

(** X18: when host, token or name is missing from [config],
    [setup_platform] raises [KeyError] before it builds a client: the
    client constructor is not called, nothing is added and nothing is
    logged. *)
Theorem setup_platform_missing_key
    (P : Platform) (config : gmap string string) (h : Hass) :
  config !! CONF_HOST P = None
  ∨ config !! CONF_TOKEN P = None
  ∨ config !! CONF_NAME P = None →
  (setup_platform P config h).1 = Raises (OtherException "KeyError")
  ∧ constructed (setup_platform P config h).2 = constructed h
  ∧ added (setup_platform P config h).2 = added h
  ∧ hass_logged (setup_platform P config h).2 = hass_logged h.
Proof.
  unfold setup_platform.
  intros [Hk | [Hk | Hk]]; rewrite Hk;
    repeat (destruct (config !! _)); by repeat split.
Qed.

Lemma setup_platform_missing_key_name :
  (setup_platform ha_platform (delete "name" sample_config) empty_hass).1
    = Raises (OtherException "KeyError")
  ∧ constructed
      (setup_platform ha_platform (delete "name" sample_config) empty_hass).2
    = constructed empty_hass
  ∧ added
      (setup_platform ha_platform (delete "name" sample_config) empty_hass).2
    = added empty_hass
  ∧ hass_logged
      (setup_platform ha_platform (delete "name" sample_config) empty_hass).2
    = hass_logged empty_hass.
Proof.
  apply (setup_platform_missing_key ha_platform (delete "name" sample_config)
           empty_hass).
  right. right. vm_compute. reflexivity.
Defined.

Example setup_platform_constructs_once :
  constructed (setup_platform ha_platform sample_config empty_hass).2
    = [("192.168.1.20", "00ff")]
  ∧ constructed (setup_platform failing_platform sample_config empty_hass).2
    = [("192.168.1.20", "00ff")].
Proof. by vm_compute. Qed.

(** X19: [setup_platform] never raises [DeviceException], whatever the
    client constructor and [add_entities] do; it calls [add_entities] at
    most once; and it logs exactly when it returns [False], one record. *)
Theorem setup_platform_contains_device_exception
    (P : Platform) (config : gmap string string) (h : Hass) :
  (∀ msg : string,
     (setup_platform P config h).1 ≠ Raises (DeviceException msg))
  ∧ (∃ calls : list (list (Xiaomi1CVacuum * Device) * bool),
       added (setup_platform P config h).2 = added h ++ calls
       ∧ (length calls ≤ 1)%nat)
  ∧ ((setup_platform P config h).1 = Returns SetupFalse →
     ∃ msg : string,
       hass_logged (setup_platform P config h).2
       = hass_logged h ++ ["Failed to connect to Xiaomi 1C vacuum: " +:+ msg])
  ∧ ((setup_platform P config h).1 ≠ Returns SetupFalse →
     hass_logged (setup_platform P config h).2 = hass_logged h).
Proof.
  unfold setup_platform.
  destruct (config !! CONF_HOST P) as [host|];
    [destruct (config !! CONF_TOKEN P) as [token|];
     [destruct (config !! CONF_NAME P) as [name|] | ] | ];
    try (simpl; split; [done |]; split;
         [exists []; split; [by rewrite app_nil_r | simpl; lia] | by split]).
  destruct (DreameDevice P host token) as [device | [msg | msg]]; simpl.
  - destruct (add_entities_reply P [(init name, device)] true)
      as [[] | [msg | msg]]; simpl;
      (split; [done |]; split; [eexists [_]; split; [done | simpl; lia] |]).
    + by split.
    + split; [intros _; by exists msg | intros Hne; by destruct Hne].
    + by split.
  - split; [done |]. split; [exists []; split; [by rewrite app_nil_r | simpl; lia] |].
    split; [intros _; by exists msg | intros Hne; by destruct Hne].
  - split; [done |]. split; [exists []; split; [by rewrite app_nil_r | simpl; lia] |].
    by split.
Qed.
